(** * Secure upload page: the intake, transfer and processing-settings logic

    A shallow embedding of the TypeScript components of the upload page:
    - [FileUpload.tsx]: [validateFile], [simulateUpload], [removeFile],
      [handleFiles];
    - [ProfileSection.tsx]: [validateProfileImage];
    - [ProcessingSettings] (src/unnamed/part_002): the draft, [canProceed],
      [handleSaveSettings], [getEstimatedSize];
    - [CompletePage] (src/unnamed/part_000): [fileUrl];
    - [App] (src/unnamed/part_003): pages and [handleProcessAnother]. *)

From Stdlib Require Import String Ascii ZArith QArith Qround Lia.
From stdpp Require Import base gmap strings list.

Open Scope string_scope.
Open Scope Z_scope.

(* ------------------------------------------------------------------ *)
(** ** Browser [File] objects *)

(** The fields of a DOM [File] the code reads: [name], [size] (bytes,
    a non-negative integer) and [type] (the declared MIME type). *)
Record File := mkFile { name : string; size : Z; type : string }.

(** [Array.prototype.includes] on an array of strings. *)
Definition includes (xs : list string) (x : string) : bool :=
  existsb (String.eqb x) xs.

(* ------------------------------------------------------------------ *)
(** ** FileUpload.tsx: validation *)

Definition ALLOWED_FILE_TYPES : list string :=
  [ "image/png";
    "image/jpeg";
    "image/jpg";
    "image/gif";
    "image/webp";
    "application/pdf";
    "application/msword";
    "application/vnd.openxmlformats-officedocument.wordprocessingml.document";
    "text/plain";
    "application/zip" ].

Definition MAX_FILE_SIZE : Z := 10 * 1024 * 1024.

Definition ERR_TYPE : string := "File type not allowed".
Definition ERR_SIZE : string := "File size exceeds 10MB limit".

(** [validateFile]: [None] is the source's [null] (accepted). *)
Definition validateFile (file : File) : option string :=
  if negb (includes ALLOWED_FILE_TYPES (type file)) then Some ERR_TYPE
  else if Z.gtb (size file) MAX_FILE_SIZE then Some ERR_SIZE
  else None.

(* ------------------------------------------------------------------ *)
(** ** ProfileSection.tsx: profile image validation *)

Definition PROFILE_IMAGE_TYPES : list string :=
  ["image/png"; "image/jpeg"; "image/jpg"; "image/gif"].

Definition MAX_PROFILE_IMAGE_SIZE : Z := 5 * 1024 * 1024.

Definition ERR_PROFILE_TYPE : string :=
  "Only PNG, JPG, JPEG, and GIF formats are allowed".
Definition ERR_PROFILE_SIZE : string := "Image size must be less than 5MB".

Definition validateProfileImage (file : File) : option string :=
  if negb (includes PROFILE_IMAGE_TYPES (type file)) then Some ERR_PROFILE_TYPE
  else if Z.gtb (size file) MAX_PROFILE_IMAGE_SIZE then Some ERR_PROFILE_SIZE
  else None.

(* ------------------------------------------------------------------ *)
(** ** FileUpload.tsx: the per-file transfer tracker *)

(** [UploadedFile.status]: ['uploading' | 'success' | 'error']. *)
Inductive Status := Uploading | Success | Error.

Record UploadedFile := mkUploadedFile {
  uf_id : string;
  uf_file : File;
  status : Status;
  progress : Z;
  error : option string
}.

(** [{ ...f, progress }] and [{ ...f, status: 'success', progress: 100 }]. *)
Definition with_progress (p : Z) (f : UploadedFile) : UploadedFile :=
  mkUploadedFile (uf_id f) (uf_file f) (status f) p (error f).
Definition with_success (f : UploadedFile) : UploadedFile :=
  mkUploadedFile (uf_id f) (uf_file f) Success 100 (error f).

(** The state of a mounted [FileUpload]: the [files] React state, and the
    running [setInterval] callbacks of [simulateUpload], one per file id,
    each with the value of its closure variable [progress]. A
    [clearInterval] deletes the entry. *)
Record UploadState := mkUploadState {
  files : list UploadedFile;
  intervals : gmap string Z
}.

Definition initialUploadState : UploadState := mkUploadState [] ∅.

(** [prev.map(f => f.id === fileId ? h(f) : f)]. *)
Definition map_id (fileId : string) (h : UploadedFile -> UploadedFile)
    (fs : list UploadedFile) : list UploadedFile :=
  map (fun f => if String.eqb (uf_id f) fileId then h f else f) fs.

(** One firing of the interval callback of [simulateUpload(fileId)]:
    [None] when no interval is running for [fileId]. *)
Definition tick (fileId : string) (s : UploadState) : option UploadState :=
  match intervals s !! fileId with
  | None => None
  | Some p =>
      let p' := p + 10 in
      if Z.geb p' 100 then
        Some (mkUploadState (map_id fileId with_success (files s))
                            (delete fileId (intervals s)))
      else
        Some (mkUploadState (map_id fileId (with_progress p') (files s))
                            (<[fileId := p']> (intervals s)))
  end.

(** The entry [handleFiles] builds for one dropped file; the id
    [`${file.name}-${Date.now()}-${Math.random()}`] is given as input. *)
Definition make_entry (id : string) (file : File) : UploadedFile :=
  match validateFile file with
  | Some e => mkUploadedFile id file Error 0 (Some e)
  | None => mkUploadedFile id file Uploading 0 None
  end.

Definition start_intervals (ufs : list UploadedFile) (iv : gmap string Z)
    : gmap string Z :=
  fold_left (fun m uf =>
               match status uf with
               | Uploading => <[uf_id uf := 0]> m
               | _ => m
               end) ufs iv.

(** [handleFiles]: append the new entries, then call [simulateUpload]
    for each entry whose status is ['uploading']. *)
Definition handleFiles (newFiles : list (string * File)) (s : UploadState)
    : UploadState :=
  let uploadedFiles := map (fun '(id, file) => make_entry id file) newFiles in
  mkUploadState (files s ++ uploadedFiles)
                (start_intervals uploadedFiles (intervals s)).

(** [removeFile]: [prev.filter(f => f.id !== id)]; no interval is cleared. *)
Definition removeFile (id : string) (s : UploadState) : UploadState :=
  mkUploadState (List.filter (fun f => negb (String.eqb (uf_id f) id)) (files s))
                (intervals s).

(** The entry a reader of [files] sees for an id (the first match). *)
Definition lookup_file (id : string) (fs : list UploadedFile)
    : option UploadedFile :=
  find (fun f => String.eqb (uf_id f) id) fs.

(** A dropped file gets an id that no entry and no running interval has:
    the id embeds [Date.now()] and [Math.random()]. *)
Definition fresh_ids (newFiles : list (string * File)) (s : UploadState)
    : Prop :=
  NoDup (map fst newFiles) /\
  Forall (fun id => lookup_file id (files s) = None /\
                    intervals s !! id = None) (map fst newFiles).

Inductive upload_step : UploadState -> UploadState -> Prop :=
| StepHandleFiles s nf :
    fresh_ids nf s -> upload_step s (handleFiles nf s)
| StepTick s fileId s' :
    tick fileId s = Some s' -> upload_step s s'
| StepRemove s id :
    upload_step s (removeFile id s).

Inductive reachable : UploadState -> Prop :=
| reach_init : reachable initialUploadState
| reach_step s s' : reachable s -> upload_step s s' -> reachable s'.

(* ------------------------------------------------------------------ *)
(** ** ProcessingSettings (src/unnamed/part_002) *)

(** The component's [useState] hooks. *)
Record Draft := mkDraft {
  encryptEnabled : bool;
  password : string;
  showPassword : bool;
  compressEnabled : bool
}.

Definition initialDraft : Draft := mkDraft false "" false false.

(** The user inputs of the component. A [ToggleSwitch] without [disabled]
    calls [onChange(!enabled)]. *)
Inductive DraftEvent :=
| ToggleEncrypt
| ToggleCompress
| SetPassword (value : string)
| ToggleShowPassword
| ResetDraft.

Definition draft_event (e : DraftEvent) (d : Draft) : Draft :=
  match e with
  | ToggleEncrypt =>
      mkDraft (negb (encryptEnabled d)) (password d) (showPassword d)
              (compressEnabled d)
  | ToggleCompress =>
      mkDraft (encryptEnabled d) (password d) (showPassword d)
              (negb (compressEnabled d))
  | SetPassword v =>
      mkDraft (encryptEnabled d) v (showPassword d) (compressEnabled d)
  | ToggleShowPassword =>
      mkDraft (encryptEnabled d) (password d) (negb (showPassword d))
              (compressEnabled d)
  | ResetDraft =>
      (* [handleReset] resets three hooks, not [showPassword] *)
      mkDraft false "" (showPassword d) false
  end.

Definition run_draft (es : list DraftEvent) (d : Draft) : Draft :=
  fold_left (fun d e => draft_event e d) es d.

(** [interface ProcessingConfig]; [password?: string] is [option string]. *)
Record ProcessingConfig := mkProcessingConfig {
  compress : bool;
  encrypt : bool;
  cfg_password : option string;
  outputFileName : string
}.

(** [handleSaveSettings] builds this object and passes it to [onProcess]. *)
Definition handleSaveSettings (fileName : string) (d : Draft)
    : ProcessingConfig :=
  mkProcessingConfig (compressEnabled d) (encryptEnabled d)
    (if encryptEnabled d then Some (password d) else None) fileName.

(** The object literal of [handleSaveSettings] as the JavaScript object
    [onProcess] receives (and [console.log] prints): its own keys in
    insertion order; [undefined] for an absent password. *)
Inductive JSValue := JSBool (b : bool) | JSString (s : string) | JSUndefined.

Definition config_object (c : ProcessingConfig) : list (string * JSValue) :=
  [ ("encrypt", JSBool (encrypt c));
    ("password", match cfg_password c with
                 | Some p => JSString p
                 | None => JSUndefined
                 end);
    ("compress", JSBool (compress c));
    ("outputFileName", JSString (outputFileName c)) ].

(** [String.prototype.trim] on the characters of an ASCII/Latin-1 string:
    tab, LF, VT, FF, CR, space and no-break space are white space. *)
Definition is_js_space (c : ascii) : bool :=
  let n := nat_of_ascii c in
  (Nat.leb 9 n && Nat.leb n 13) || Nat.eqb n 32 || Nat.eqb n 160.

Fixpoint drop_space (cs : list ascii) : list ascii :=
  match cs with
  | [] => []
  | c :: cs' => if is_js_space c then drop_space cs' else cs
  end.

Definition trim (s : string) : string :=
  string_of_list_ascii
    (rev (drop_space (rev (drop_space (list_ascii_of_string s))))).

(** [const canProceed = !encryptEnabled || (encryptEnabled &&
    password.trim().length >= 6)]. *)
Definition canProceed (d : Draft) : bool :=
  negb (encryptEnabled d) ||
  (encryptEnabled d && Nat.leb 6 (String.length (trim (password d)))).

(** The amber message under the buttons:
    [encryptEnabled && !canProceed]. *)
Definition validPasswordMessageShown (d : Draft) : bool :=
  encryptEnabled d && negb (canProceed d).

(** A click on "Save Settings": the button has [disabled={!canProceed}],
    and a disabled button does not run its [onClick]. *)
Inductive SaveOutcome :=
| SaveDisabled
| SaveFired (cfg : ProcessingConfig).

Definition click_save (fileName : string) (d : Draft) : SaveOutcome :=
  if canProceed d then SaveFired (handleSaveSettings fileName d)
  else SaveDisabled.

(** [getCompressionReduction] and [getEstimatedSize]. The double
    arithmetic is taken exactly over [Q]: [1 - 0.4] is the double [0.6],
    and [Math.round x] is [Math.floor (x + 0.5)]. *)
Definition getCompressionReduction (compressOn : bool) : Q :=
  if negb compressOn then 0%Q else (4 # 10)%Q.

Definition math_round (x : Q) : Z := Qfloor (x + (1 # 2))%Q.

Definition getEstimatedSize (compressOn : bool) (fileSize : Z) : Z :=
  if negb compressOn then fileSize
  else math_round (inject_Z fileSize * (1 - getCompressionReduction compressOn))%Q.

(** The spec's wording: [floor(originalSize * (1 - factor))], factor 40%. *)
Definition spec_estimated_size (compressOn : bool) (fileSize : Z) : Z :=
  if compressOn then Qfloor (inject_Z fileSize * (1 - (4 # 10)))%Q else fileSize.

(* ------------------------------------------------------------------ *)
(** ** CompletePage (src/unnamed/part_000) *)

Definition FILE_URL_PREFIX : string := "https://files.example.com/download/".

(** [const fileUrl = `https://files.example.com/download/${fileName}`]. *)
Definition fileUrl (fileName : string) : string :=
  String.append FILE_URL_PREFIX fileName.

(** The characters [encodeURIComponent] leaves as they are:
    [A-Z a-z 0-9 - _ . ! ~ * ' ( )]. *)
Definition is_uri_unreserved (c : ascii) : bool :=
  let n := nat_of_ascii c in
  (Nat.leb 65 n && Nat.leb n 90) || (Nat.leb 97 n && Nat.leb n 122) ||
  (Nat.leb 48 n && Nat.leb n 57) ||
  existsb (fun m => Nat.eqb n m) [45; 95; 46; 33; 126; 42; 39; 40; 41]%nat.

(** A path component in encoded form: unreserved characters and the [%]
    of percent escapes only. *)
Definition encoded_component (s : string) : bool :=
  forallb (fun c => is_uri_unreserved c || Nat.eqb (nat_of_ascii c) 37)
          (list_ascii_of_string s).

(* ------------------------------------------------------------------ *)
(** ** App (src/unnamed/part_003) *)

(** [type Page = "upload" | "processing" | "complete" | "profile"]. *)
Inductive Page := PUpload | PProcessing | PComplete | PProfile.

(** The App hooks, the number of [setTimeout] callbacks of
    [handleProcessingStart] not yet fired, and the state of the child
    components that hold state while they are mounted ([None] when the
    child is not rendered: React drops a child's hooks on unmount). *)
Record AppState := mkAppState {
  isLoggedIn : bool;
  username : string;
  currentPage : Page;
  selectedFile : option File;
  pendingTimeouts : nat;
  upload : option UploadState;
  settings : option Draft
}.

(** What [App] returns, in the order of its [if] chain. *)
Inductive View := VLogin | VProcessing | VProfile | VComplete | VDashboard.

Definition view (s : AppState) : View :=
  if negb (isLoggedIn s) then VLogin
  else match currentPage s, selectedFile s with
       | PProcessing, Some _ => VProcessing
       | PProfile, _ => VProfile
       | PComplete, Some _ => VComplete
       | _, _ => VDashboard
       end.

Definition is_dashboard (v : View) : bool :=
  match v with VDashboard => true | _ => false end.
Definition is_processing (v : View) : bool :=
  match v with VProcessing => true | _ => false end.

(** A re-render after App's hooks changed from [old] to [new]: the
    [FileUpload] of the dashboard and the [ProcessingSettings] keep their
    state when they stay rendered, start from their initial state when they
    appear, and lose it when they disappear. *)
Definition commit (old new : AppState) : AppState :=
  mkAppState (isLoggedIn new) (username new) (currentPage new)
    (selectedFile new) (pendingTimeouts new)
    (if is_dashboard (view new)
     then if is_dashboard (view old) then upload old
          else Some initialUploadState
     else None)
    (if is_processing (view new)
     then if is_processing (view old) then settings old
          else Some initialDraft
     else None).

(** [handleProcessAnother]: [setSelectedFile(null); setCurrentPage("upload")]. *)
Definition handleProcessAnother (s : AppState) : AppState :=
  commit s (mkAppState (isLoggedIn s) (username s) PUpload None
              (pendingTimeouts s) (upload s) (settings s)).

(** [handleProcessingStart]: logs the settings and schedules
    [setCurrentPage("complete")] after 1500 ms. *)
Definition handleProcessingStart (cfg : ProcessingConfig) (s : AppState)
    : AppState :=
  commit s (mkAppState (isLoggedIn s) (username s) (currentPage s)
              (selectedFile s) (S (pendingTimeouts s)) (upload s) (settings s)).

(** A click on "Save Settings" on the processing page, whose
    [ProcessingSettings] received [fileName={selectedFile.name}]. *)
Definition app_click_save (s : AppState) : AppState :=
  match view s, settings s, selectedFile s with
  | VProcessing, Some d, Some f =>
      match click_save (name f) d with
      | SaveDisabled => s
      | SaveFired cfg => handleProcessingStart cfg s
      end
  | _, _, _ => s
  end.

(** The artifact reference of the completed page: [CompletePage] receives
    [fileName={selectedFile.name}]. *)
Definition app_reference (s : AppState) : option string :=
  match view s, selectedFile s with
  | VComplete, Some f => Some (fileUrl (name f))
  | _, _ => None
  end.

(** The invariant of a reachable [FileUpload] state, per entry a reader
    sees: an uploading entry shows the progress of its running interval,
    a succeeded one shows 100 and an entry in error 0, and neither of the
    last two has a running interval. Running intervals hold 0 to 99. *)
Definition file_ok (iv : gmap string Z) (f : UploadedFile) : Prop :=
  match status f with
  | Uploading => iv !! uf_id f = Some (progress f)
  | Success => progress f = 100 /\ iv !! uf_id f = None
  | Error => progress f = 0 /\ iv !! uf_id f = None
  end.

Definition upload_inv (s : UploadState) : Prop :=
  (forall id f, lookup_file id (files s) = Some f -> file_ok (intervals s) f) /\
  (forall id p, intervals s !! id = Some p -> 0 <= p < 100).

(* ------------------------------------------------------------------ *)
(** ** More of FileUpload.tsx *)

(** [n] successive firings of the interval of [simulateUpload(fileId)];
    [None] when the interval is no longer running at some firing. *)
Fixpoint tick_n (n : nat) (fileId : string) (s : UploadState)
    : option UploadState :=
  match n with
  | O => Some s
  | S n' =>
      match tick fileId s with
      | Some s' => tick_n n' fileId s'
      | None => None
      end
  end.

(** The "Process File" button of an entry is rendered only when its
    status is ['success'] (and [onFileSelect] is given, as [App] does); it
    calls [onFileSelect(uploadedFile.file)]. *)
Definition process_file_button (u : UploadState) (id : string) : option File :=
  match lookup_file id (files u) with
  | Some f => match status f with Success => Some (uf_file f) | _ => None end
  | None => None
  end.

(* ------------------------------------------------------------------ *)
(** ** More of ProcessingSettings *)

(** The red hint under the password field, inside the
    [{encryptEnabled && ...}] block:
    [{password && password.length < 6 && ...}] (the empty string is
    falsy). *)
Definition passwordHintShown (d : Draft) : bool :=
  encryptEnabled d && negb (String.eqb (password d) "") &&
  Nat.ltb (String.length (password d)) 6.

(* ------------------------------------------------------------------ *)
(** ** ProfileSection.tsx: documents and the profile image *)

Definition DOCUMENT_TYPES : list string :=
  [ "application/pdf";
    "application/msword";
    "application/vnd.openxmlformats-officedocument.wordprocessingml.document";
    "text/plain";
    "application/zip" ].

(** [String.prototype.includes] for a substring. *)
Fixpoint str_includes (s sub : string) : bool :=
  match s with
  | EmptyString => String.prefix sub s
  | String _ s' => String.prefix sub s || str_includes s' sub
  end.

Definition ICON_PDF : string := "📄".
Definition ICON_WORD : string := "📝".
Definition ICON_TEXT : string := "📃".
Definition ICON_ZIP : string := "📦".
Definition ICON_OTHER : string := "📎".

Definition getFileIcon (t : string) : string :=
  if str_includes t "pdf" then ICON_PDF
  else if str_includes t "word" then ICON_WORD
  else if str_includes t "text" then ICON_TEXT
  else if str_includes t "zip" then ICON_ZIP
  else ICON_OTHER.

Record UploadedDocument := mkUploadedDocument {
  doc_id : string;
  doc_file : File;
  preview : string
}.

(** [addDocuments]: keep the files whose type is in [DOCUMENT_TYPES] and
    append one document per kept file; the id
    [`${file.name}-${Date.now()}-${Math.random()}`] comes with each file. *)
Definition addDocuments (newFiles : list (string * File))
    (documents : list UploadedDocument) : list UploadedDocument :=
  let validFiles :=
    List.filter (fun '(_, file) => includes DOCUMENT_TYPES (type file))
                newFiles in
  documents ++
  map (fun '(id, file) => mkUploadedDocument id file (getFileIcon (type file)))
      validFiles.

(** The profile-image hooks: [profileImage], the [errors] object and the
    [FileReader] started by [readAsDataURL], whose [onloadend] sets the
    image later. *)
Record ProfileImageState := mkProfileImageState {
  profileImage : option string;
  errors : gmap string string;
  pendingRead : option File
}.

(** [handleProfileImageChange]. *)
Definition handleProfileImageChange (file : File) (st : ProfileImageState)
    : ProfileImageState :=
  match validateProfileImage file with
  | Some e =>
      mkProfileImageState (profileImage st)
        (<["profileImage" := e]> (errors st)) (pendingRead st)
  | None =>
      mkProfileImageState (profileImage st)
        (<["profileImage" := ""]> (errors st)) (Some file)
  end.

(** [reader.onloadend]: [setProfileImage(reader.result)]. *)
Definition profileReadDone (dataUrl : string) (st : ProfileImageState)
    : ProfileImageState :=
  match pendingRead st with
  | Some _ => mkProfileImageState (Some dataUrl) (errors st) None
  | None => st
  end.

(** [{errors.profileImage && <p>...</p>}]. *)
Definition profileImageErrorShown (st : ProfileImageState) : bool :=
  match errors st !! "profileImage" with
  | Some e => negb (String.eqb e "")
  | None => false
  end.

(* ------------------------------------------------------------------ *)
(** ** More of App *)

Definition set_page (p : Page) (s : AppState) : AppState :=
  commit s (mkAppState (isLoggedIn s) (username s) p (selectedFile s)
              (pendingTimeouts s) (upload s) (settings s)).

(** [handleLogin]: [setUsername(user); setIsLoggedIn(true)]. *)
Definition handleLogin (user : string) (s : AppState) : AppState :=
  commit s (mkAppState true user (currentPage s) (selectedFile s)
              (pendingTimeouts s) (upload s) (settings s)).

(** [handleLogout]. A pending [setTimeout] is not cancelled. *)
Definition handleLogout (s : AppState) : AppState :=
  commit s (mkAppState false "" PUpload None
              (pendingTimeouts s) (upload s) (settings s)).

(** [handleFileSelect]: [setSelectedFile(file); setCurrentPage("processing")]. *)
Definition handleFileSelect (file : File) (s : AppState) : AppState :=
  commit s (mkAppState (isLoggedIn s) (username s) PProcessing (Some file)
              (pendingTimeouts s) (upload s) (settings s)).

(** [handleProcessingBack], [handleViewProfile], [handleBackToDashboard]. *)
Definition handleProcessingBack (s : AppState) : AppState := set_page PUpload s.
Definition handleViewProfile (s : AppState) : AppState := set_page PProfile s.
Definition handleBackToDashboard (s : AppState) : AppState :=
  set_page PUpload s.

(** The [setTimeout] of [handleProcessingStart] fires:
    [setCurrentPage("complete")]. *)
Definition fire_processing_timeout (s : AppState) : option AppState :=
  match pendingTimeouts s with
  | O => None
  | S n =>
      Some (commit s (mkAppState (isLoggedIn s) (username s) PComplete
                        (selectedFile s) n (upload s) (settings s)))
  end.

(** A click on "Process File" of entry [id] in the dashboard's
    [FileUpload], which [App] renders with [onFileSelect={handleFileSelect}]. *)
Definition app_process_file (id : string) (s : AppState) : AppState :=
  match view s, upload s with
  | VDashboard, Some u =>
      match process_file_button u id with
      | Some file => handleFileSelect file s
      | None => s
      end
  | _, _ => s
  end.

(** Entries that are not in error hold a file that passed [validateFile]. *)
Definition upload_valid_inv (s : UploadState) : Prop :=
  forall id f, lookup_file id (files s) = Some f -> status f <> Error ->
               validateFile (uf_file f) = None.

(* ================================================================== *)
(** * Properties *)

(* ------------------------------------------------------------------ *)
(** ** Helper lemmas *)

Lemma string_eqb_refl' (s : string) : String.eqb s s = true.
Proof. apply String.eqb_eq. reflexivity. Qed.

Lemma length_string_of_list_ascii (l : list ascii) :
  String.length (string_of_list_ascii l) = List.length l.
Proof. induction l as [|c l IH]; simpl; [reflexivity | now rewrite IH]. Qed.

Lemma length_list_ascii_of_string (s : string) :
  List.length (list_ascii_of_string s) = String.length s.
Proof. induction s as [|c s IH]; simpl; [reflexivity | now rewrite IH]. Qed.

Lemma drop_space_length (l : list ascii) :
  (List.length (drop_space l) <= List.length l)%nat.
Proof.
  induction l as [|c l IH]; simpl; [lia|].
  destruct (is_js_space c); simpl; lia.
Qed.

Lemma trim_length_le (s : string) :
  (String.length (trim s) <= String.length s)%nat.
Proof.
  unfold trim. rewrite length_string_of_list_ascii, length_rev.
  rewrite <- length_list_ascii_of_string.
  pose proof (drop_space_length (list_ascii_of_string s)) as H1.
  pose proof (drop_space_length (rev (drop_space (list_ascii_of_string s))))
    as H2.
  rewrite length_rev in H2. lia.
Qed.

Lemma string_append_cancel (p x y : string) :
  String.append p x = String.append p y -> x = y.
Proof.
  induction p as [|c p IH]; simpl; [auto|].
  intros H. injection H. exact IH.
Qed.

(* ------------------------------------------------------------------ *)
(** ** Validation *)

(** C3: a file whose declared type is not in [ALLOWED_FILE_TYPES] is
    rejected with the type message, whatever its size: the type test comes
    first. *)
Theorem validateFile_unsupported_type (file : File) :
  includes ALLOWED_FILE_TYPES (type file) = false ->
  validateFile file = Some ERR_TYPE.
Proof. intros H. unfold validateFile. rewrite H. reflexivity. Qed.

Lemma validateFile_unsupported_type_witness :
  let f := mkFile "setup.exe" (20 * 1024 * 1024) "application/x-msdownload" in
  includes ALLOWED_FILE_TYPES (type f) = false /\
  validateFile f = Some ERR_TYPE.
Proof.
  split; [reflexivity|].
  apply validateFile_unsupported_type. reflexivity.
Defined.

(** C4: a file of an allowed type larger than 10 MiB is rejected with the
    size message; for a profile image the allow-list is PNG, JPEG, JPG and
    GIF, all of them also general types, and the ceiling is 5 MiB. *)
Theorem validate_too_large :
  MAX_FILE_SIZE = 10 * 1024 * 1024 /\
  (forall file : File,
     includes ALLOWED_FILE_TYPES (type file) = true ->
     size file > 10 * 1024 * 1024 ->
     validateFile file = Some ERR_SIZE) /\
  MAX_PROFILE_IMAGE_SIZE = 5 * 1024 * 1024 /\
  PROFILE_IMAGE_TYPES = ["image/png"; "image/jpeg"; "image/jpg"; "image/gif"] /\
  (forall t, includes PROFILE_IMAGE_TYPES t = true ->
             includes ALLOWED_FILE_TYPES t = true) /\
  (forall file : File,
     includes PROFILE_IMAGE_TYPES (type file) = true ->
     size file > 5 * 1024 * 1024 ->
     validateProfileImage file = Some ERR_PROFILE_SIZE).
Proof.
  repeat split.
  - intros file Ht Hs. unfold validateFile. rewrite Ht. simpl.
    unfold MAX_FILE_SIZE. replace (size file >? 10 * 1024 * 1024) with true;
      [reflexivity | symmetry; apply Z.gtb_lt; lia].
  - intros t. unfold includes, PROFILE_IMAGE_TYPES, ALLOWED_FILE_TYPES.
    simpl. intros H.
    repeat (apply orb_true_iff in H as [H|H];
            [apply String.eqb_eq in H; subst t; reflexivity|]).
    congruence.
  - intros file Ht Hs. unfold validateProfileImage. rewrite Ht. simpl.
    unfold MAX_PROFILE_IMAGE_SIZE.
    replace (size file >? 5 * 1024 * 1024) with true;
      [reflexivity | symmetry; apply Z.gtb_lt; lia].
Qed.

Lemma validate_too_large_witness :
  let f := mkFile "a.png" (10 * 1024 * 1024 + 1) "image/png" in
  let g := mkFile "me.jpg" (5 * 1024 * 1024 + 1) "image/jpeg" in
  includes ALLOWED_FILE_TYPES (type f) = true /\
  size f > 10 * 1024 * 1024 /\
  validateFile f = Some ERR_SIZE /\
  includes PROFILE_IMAGE_TYPES (type g) = true /\
  size g > 5 * 1024 * 1024 /\
  validateProfileImage g = Some ERR_PROFILE_SIZE.
Proof.
  pose proof validate_too_large as (_ & H1 & _ & _ & _ & H2).
  intros f g.
  assert (Hf : size f > 10 * 1024 * 1024) by (simpl; lia).
  assert (Hg : size g > 5 * 1024 * 1024) by (simpl; lia).
  exact (conj eq_refl (conj Hf (conj (H1 f eq_refl Hf)
           (conj eq_refl (conj Hg (H2 g eq_refl Hg)))))).
Defined.

(* ------------------------------------------------------------------ *)
(** ** Processing settings *)

(** The "Save Settings" click on a draft with encryption on and a password
    of fewer than six characters is disabled: [trim] never lengthens. *)
Lemma click_save_short_password (fileName : string) (d : Draft) :
  encryptEnabled d = true ->
  (String.length (trim (password d)) < 6)%nat ->
  click_save fileName d = SaveDisabled.
Proof.
  intros He Hl. unfold click_save, canProceed. rewrite He.
  replace (Nat.leb 6 (String.length (trim (password d)))) with false;
    [reflexivity | symmetry; apply Nat.leb_gt; lia].
Qed.

Lemma app_state_neq_pending (s : AppState) (cfg : ProcessingConfig) :
  handleProcessingStart cfg s <> s.
Proof.
  unfold handleProcessingStart, commit. destruct s; simpl.
  intros H. injection H. lia.
Qed.

(** C1, as the claim states it, fails: the six-space password has six
    characters, and the Save button stays disabled, since [canProceed]
    measures the trimmed password. *)
Lemma save_weak_password_counterexample :
  ~ (forall (fileName : string) (d : Draft),
       encryptEnabled d = true ->
       (6 <= String.length (password d))%nat ->
       exists cfg, click_save fileName d = SaveFired cfg).
Proof.
  intros H.
  destruct (H "a.png" (mkDraft true "      " false false) eq_refl)
    as [cfg Hc]; [simpl; lia|].
  vm_compute in Hc. discriminate Hc.
Qed.

(** C1 (amended): on the processing page with encryption on, a click on
    "Save Settings" leaves the whole App state unchanged when the password
    has fewer than six characters, and more generally exactly when the
    password without leading and trailing white space has fewer than six;
    with six or more such characters it hands the configuration to
    [handleProcessingStart]. The amber "valid encryption password" message
    is shown exactly when the click is blocked. *)
Theorem save_weak_password (s : AppState) (d : Draft) (f : File) :
  view s = VProcessing ->
  settings s = Some d ->
  selectedFile s = Some f ->
  encryptEnabled d = true ->
  ((String.length (password d) < 6)%nat -> app_click_save s = s) /\
  (app_click_save s = s <-> (String.length (trim (password d)) < 6)%nat) /\
  ((6 <= String.length (trim (password d)))%nat ->
   app_click_save s = handleProcessingStart (handleSaveSettings (name f) d) s) /\
  (validPasswordMessageShown d = true <->
   (String.length (trim (password d)) < 6)%nat).
Proof.
  intros Hv Hs Hf He.
  assert (Hmsg : validPasswordMessageShown d = true <->
                 (String.length (trim (password d)) < 6)%nat).
  { unfold validPasswordMessageShown, canProceed. rewrite He.
    destruct (Nat.leb_spec 6 (String.length (trim (password d)))) as [H|H];
      simpl; split; intros Hx; try reflexivity; try lia; congruence. }
  assert (Hfire : (6 <= String.length (trim (password d)))%nat ->
     app_click_save s = handleProcessingStart (handleSaveSettings (name f) d) s).
  { intros Hl. unfold app_click_save. rewrite Hv, Hs, Hf.
    unfold click_save, canProceed. rewrite He.
    replace (Nat.leb 6 (String.length (trim (password d)))) with true;
      [reflexivity | symmetry; apply Nat.leb_le; lia]. }
  assert (Hblock : (String.length (trim (password d)) < 6)%nat ->
                   app_click_save s = s).
  { intros Hl. unfold app_click_save. rewrite Hv, Hs, Hf.
    rewrite (click_save_short_password (name f) d He Hl). reflexivity. }
  split; [|split; [split|split; [exact Hfire|exact Hmsg]]].
  - intros Hl. apply Hblock. pose proof (trim_length_le (password d)). lia.
  - intros Heq. destruct (Nat.lt_ge_cases (String.length (trim (password d))) 6)
      as [Hl|Hl]; [exact Hl|].
    rewrite (Hfire Hl) in Heq. exfalso. exact (app_state_neq_pending _ _ Heq).
  - exact Hblock.
Qed.

Lemma save_weak_password_witness :
  let d := mkDraft true "abc" false false in
  let f := mkFile "a.png" 1024 "image/png" in
  let s := mkAppState true "alice" PProcessing (Some f) 0
             None (Some d) in
  view s = VProcessing /\ settings s = Some d /\ selectedFile s = Some f /\
  encryptEnabled d = true /\ app_click_save s = s.
Proof.
  intros d f s.
  assert (Hv : view s = VProcessing) by reflexivity.
  refine (conj Hv (conj eq_refl (conj eq_refl (conj eq_refl _)))).
  apply (proj1 (save_weak_password s d f Hv eq_refl eq_refl eq_refl)).
  simpl. lia.
Defined.

(** C2, as the claim states it, fails: the configuration submitted with
    both flags on has no field holding the ordering
    "encrypt-then-compress"; the order appears only as an on-screen note. *)
Lemma processing_order_counterexample :
  ~ (forall (fileName : string) (d : Draft),
       encryptEnabled d = true -> compressEnabled d = true ->
       canProceed d = true ->
       exists k, In (k, JSString "encrypt-then-compress")
                    (config_object (handleSaveSettings fileName d))).
Proof.
  intros H.
  destruct (H "a.png" (run_draft [ToggleEncrypt; ToggleCompress;
                                  SetPassword "secret1"] initialDraft)
              eq_refl eq_refl eq_refl) as [k Hk].
  simpl in Hk.
  repeat (destruct Hk as [Hk|Hk]; [congruence|]). exact Hk.
Qed.

(** C2 (amended): with both flags on, the submitted configuration is
    [{encrypt: true, password, compress: true, outputFileName}] with the
    four keys of [handleSaveSettings] and no ordering field; it depends on
    the final flags only, and the two toggles commute. *)
Theorem processing_order (fileName : string) (d : Draft) :
  encryptEnabled d = true -> compressEnabled d = true ->
  handleSaveSettings fileName d =
    mkProcessingConfig true true (Some (password d)) fileName /\
  map fst (config_object (handleSaveSettings fileName d)) =
    ["encrypt"; "password"; "compress"; "outputFileName"] /\
  run_draft [ToggleEncrypt; ToggleCompress] d =
    run_draft [ToggleCompress; ToggleEncrypt] d.
Proof.
  intros He Hc. unfold handleSaveSettings. rewrite He, Hc.
  split; [reflexivity | split; reflexivity].
Qed.

Lemma processing_order_witness :
  let d := run_draft [ToggleCompress; SetPassword "secret1"; ToggleEncrypt]
             initialDraft in
  encryptEnabled d = true /\ compressEnabled d = true /\
  handleSaveSettings "a.png" d =
    mkProcessingConfig true true (Some "secret1") "a.png".
Proof.
  intros d.
  refine (conj eq_refl (conj eq_refl _)).
  exact (proj1 (processing_order "a.png" d eq_refl eq_refl)).
Defined.

(** C7, as the claim states it, fails: the estimate uses [Math.round], not
    [floor]; for a one-byte file it shows 1 byte where the floor is 0. *)
Lemma estimated_size_counterexample :
  getEstimatedSize true 1 = 1 /\ spec_estimated_size true 1 = 0.
Proof. split; reflexivity. Qed.

(** C7 (amended): with compression on, the estimate is the original size
    times 0.6 rounded to the nearest integer, halves upward
    ([Math.round]): [(6 n + 5) / 10] in integer division; with compression
    off it is the original size. It depends only on the size and the flag. *)
Theorem estimated_size (fileSize : Z) :
  getEstimatedSize true fileSize = (6 * fileSize + 5) / 10 /\
  getEstimatedSize false fileSize = fileSize.
Proof.
  split; [|reflexivity].
  unfold getEstimatedSize, math_round, getCompressionReduction. simpl.
  unfold Qfloor, Qplus, Qmult, inject_Z. simpl.
  match goal with
  | |- ?a / ?b = _ =>
      replace a with ((6 * fileSize + 5) * 2) by lia;
      replace b with (10 * 2) by reflexivity
  end.
  apply Z.div_mul_cancel_r; lia.
Qed.

(** C10: while encryption is off, the submitted configuration carries no
    password, whatever was typed: changing the typed password changes
    neither the outcome of the Save click nor the configuration. *)
Theorem no_password_leak (fileName : string) (d : Draft) (typed : string) :
  encryptEnabled d = false ->
  click_save fileName d = SaveFired (handleSaveSettings fileName d) /\
  click_save fileName (draft_event (SetPassword typed) d) =
    click_save fileName d /\
  handleSaveSettings fileName (draft_event (SetPassword typed) d) =
    handleSaveSettings fileName d /\
  cfg_password (handleSaveSettings fileName d) = None.
Proof.
  intros He. destruct d as [enc pw show comp]. simpl in He. subst enc.
  unfold click_save, canProceed, handleSaveSettings. simpl.
  repeat split; reflexivity.
Qed.

Lemma no_password_leak_witness :
  let d := mkDraft false "hunter22" true true in
  encryptEnabled d = false /\
  handleSaveSettings "a.png" (draft_event (SetPassword "other") d) =
    handleSaveSettings "a.png" d.
Proof.
  intros d. refine (conj eq_refl _).
  exact (proj1 (proj2 (proj2 (no_password_leak "a.png" d "other" eq_refl)))).
Defined.

(* ------------------------------------------------------------------ *)
(** ** Artifact reference *)

(** C8, as the claim states it, fails: a file name with a space and a [?]
    goes into the URL as it is, so the name component is not encoded. *)
Lemma file_url_counterexample :
  ~ (forall fileName : string,
       exists comp, fileUrl fileName = String.append FILE_URL_PREFIX comp /\
                    encoded_component comp = true).
Proof.
  intros H. destruct (H "my file?.pdf") as [comp [Hu He]].
  unfold fileUrl in Hu. apply string_append_cancel in Hu. subst comp.
  vm_compute in He. discriminate He.
Qed.

(** C8 (amended): the reference shown on the completed page is the fixed
    prefix followed by the selected file's original name, verbatim and
    without encoding; it is a function of the name, and distinct names give
    distinct references. *)
Theorem file_url_reference (s : AppState) (f : File) :
  view s = VComplete -> selectedFile s = Some f ->
  app_reference s = Some (String.append FILE_URL_PREFIX (name f)) /\
  (forall n1 n2, fileUrl n1 = fileUrl n2 -> n1 = n2).
Proof.
  intros Hv Hf. split.
  - unfold app_reference. rewrite Hv, Hf. reflexivity.
  - intros n1 n2. apply string_append_cancel.
Qed.

Lemma file_url_reference_witness :
  let f := mkFile "my file?.pdf" 1024 "application/pdf" in
  let s := mkAppState true "alice" PComplete (Some f) 0 None None in
  view s = VComplete /\
  app_reference s =
    Some "https://files.example.com/download/my file?.pdf".
Proof.
  intros f s. refine (conj eq_refl _).
  exact (proj1 (file_url_reference s f eq_refl eq_refl)).
Defined.

(* ------------------------------------------------------------------ *)
(** ** Restart from the completed page *)

(** C9: from the completed page, "Process another file" returns to the
    dashboard with no selected file, a freshly mounted [FileUpload] holding
    no entries and no intervals, and no mounted [ProcessingSettings], so no
    draft survives; this holds whatever the earlier state held. *)
Theorem process_another_resets (s : AppState) :
  view s = VComplete ->
  let s' := handleProcessAnother s in
  currentPage s' = PUpload /\ selectedFile s' = None /\
  view s' = VDashboard /\
  upload s' = Some initialUploadState /\
  option_map files (upload s') = Some [] /\
  settings s' = None.
Proof.
  intros Hv s'. unfold s', handleProcessAnother, commit.
  assert (Hl : isLoggedIn s = true).
  { unfold view in Hv. destruct (isLoggedIn s); [reflexivity | discriminate]. }
  unfold view at 1 2 3 4. simpl. rewrite Hl, Hv. simpl.
  repeat split.
Qed.

Lemma process_another_resets_witness :
  let f := mkFile "a.png" 1024 "image/png" in
  let cfgDraft := mkDraft true "secret1" true true in
  let s := mkAppState true "alice" PComplete (Some f) 2
             None (Some cfgDraft) in
  view s = VComplete /\ settings (handleProcessAnother s) = None.
Proof.
  intros f cfgDraft s. refine (conj eq_refl _).
  exact (proj2 (proj2 (proj2 (proj2 (proj2
           (process_another_resets s eq_refl)))))).
Defined.

(* ------------------------------------------------------------------ *)
(** ** Transfer tracker: lookups through the list updates *)

Section Lookups.

Variable h : UploadedFile -> UploadedFile.
Hypothesis h_id : forall f, uf_id (h f) = uf_id f.

Lemma lookup_map_id_same (id : string) (fs : list UploadedFile) :
  lookup_file id (map_id id h fs) = option_map h (lookup_file id fs).
Proof.
  induction fs as [|f fs IH]; simpl; [reflexivity|].
  destruct (String.eqb (uf_id f) id) eqn:E; simpl.
  - rewrite h_id, E. reflexivity.
  - rewrite E. exact IH.
Qed.

Lemma lookup_map_id_other (id id' : string) (fs : list UploadedFile) :
  id' <> id ->
  lookup_file id' (map_id id h fs) = lookup_file id' fs.
Proof.
  intros Hne. induction fs as [|f fs IH]; simpl; [reflexivity|].
  destruct (String.eqb (uf_id f) id) eqn:E; simpl.
  - apply String.eqb_eq in E. rewrite h_id, E.
    destruct (String.eqb_spec id id'); [congruence|]. exact IH.
  - destruct (String.eqb (uf_id f) id'); [reflexivity | exact IH].
Qed.

Lemma map_id_absent (id : string) (fs : list UploadedFile) :
  lookup_file id fs = None -> map_id id h fs = fs.
Proof.
  induction fs as [|f fs IH]; simpl; [reflexivity|].
  destruct (String.eqb (uf_id f) id); [discriminate|].
  intros H. f_equal. exact (IH H).
Qed.

End Lookups.

Lemma lookup_filter_removed (id id' : string) (fs : list UploadedFile) :
  lookup_file id'
    (List.filter (fun f => negb (String.eqb (uf_id f) id)) fs) =
  if String.eqb id' id then None else lookup_file id' fs.
Proof.
  induction fs as [|f fs IH]; simpl.
  - destruct (String.eqb id' id); reflexivity.
  - destruct (String.eqb_spec (uf_id f) id) as [E|E]; simpl.
    + rewrite IH. subst id.
      destruct (String.eqb_spec id' (uf_id f)) as [E'|E'].
      * reflexivity.
      * destruct (String.eqb_spec (uf_id f) id') as [E''|E'']; [congruence|].
        reflexivity.
    + rewrite IH.
      destruct (String.eqb_spec id' id) as [E'|E'];
      destruct (String.eqb_spec (uf_id f) id') as [E''|E'']; try congruence;
      reflexivity.
Qed.

Lemma lookup_app (id : string) (fs1 fs2 : list UploadedFile) :
  lookup_file id (fs1 ++ fs2) =
  match lookup_file id fs1 with
  | Some f => Some f
  | None => lookup_file id fs2
  end.
Proof.
  induction fs1 as [|f fs1 IH]; simpl; [reflexivity|].
  destruct (String.eqb (uf_id f) id); [reflexivity | exact IH].
Qed.

Lemma lookup_file_id (id : string) (fs : list UploadedFile) (f : UploadedFile) :
  lookup_file id fs = Some f -> uf_id f = id.
Proof.
  induction fs as [|g fs IH]; simpl; [discriminate|].
  destruct (String.eqb (uf_id g) id) eqn:E.
  - intros H. injection H as <-. apply String.eqb_eq. exact E.
  - exact IH.
Qed.

Lemma lookup_file_in (id : string) (fs : list UploadedFile) (f : UploadedFile) :
  lookup_file id fs = Some f -> In f fs.
Proof. unfold lookup_file. intros H. exact (proj1 (find_some _ _ H)). Qed.

Lemma lookup_file_notin (id : string) (fs : list UploadedFile) :
  ~ In id (map uf_id fs) -> lookup_file id fs = None.
Proof.
  induction fs as [|f fs IH]; simpl; [reflexivity|].
  intros Hn. destruct (String.eqb_spec (uf_id f) id) as [E|E].
  - exfalso. apply Hn. left. exact E.
  - apply IH. intros Hi. apply Hn. right. exact Hi.
Qed.

Lemma lookup_file_some_in (id : string) (fs : list UploadedFile)
    (f : UploadedFile) :
  lookup_file id fs = Some f -> In id (map uf_id fs).
Proof.
  intros H. rewrite <- (lookup_file_id id fs f H).
  apply in_map. exact (lookup_file_in id fs f H).
Qed.

(* ------------------------------------------------------------------ *)
(** ** Transfer tracker: the intervals [handleFiles] starts *)

Lemma start_intervals_lookup (ufs : list UploadedFile) (iv : gmap string Z)
    (k : string) :
  start_intervals ufs iv !! k =
  if existsb (fun uf => String.eqb (uf_id uf) k &&
                        match status uf with Uploading => true | _ => false end)
             ufs
  then Some 0 else iv !! k.
Proof.
  revert iv. induction ufs as [|uf ufs IH]; intros iv; simpl; [reflexivity|].
  unfold start_intervals in IH |- *. simpl. rewrite IH.
  destruct (existsb _ ufs); [destruct (_ && _); reflexivity|].
  rewrite orb_false_r.
  destruct (status uf); simpl; rewrite ?andb_false_r; try reflexivity.
  destruct (String.eqb_spec (uf_id uf) k) as [E|E].
  - subst k. apply lookup_insert_eq.
  - apply lookup_insert_ne. exact E.
Qed.

Lemma existsb_lookup_none (k : string) (ufs : list UploadedFile) :
  lookup_file k ufs = None ->
  existsb (fun uf => String.eqb (uf_id uf) k &&
                     match status uf with Uploading => true | _ => false end)
          ufs = false.
Proof.
  induction ufs as [|uf ufs IH]; simpl; [reflexivity|].
  destruct (String.eqb (uf_id uf) k); [discriminate|]. exact IH.
Qed.

Lemma existsb_lookup_some (k : string) (ufs : list UploadedFile)
    (e : UploadedFile) :
  NoDup (map uf_id ufs) -> lookup_file k ufs = Some e ->
  existsb (fun uf => String.eqb (uf_id uf) k &&
                     match status uf with Uploading => true | _ => false end)
          ufs = match status e with Uploading => true | _ => false end.
Proof.
  induction ufs as [|uf ufs IH]; simpl; [discriminate|].
  intros Hnd. inversion Hnd as [|? ? Hn Hnd']; subst.
  destruct (String.eqb_spec (uf_id uf) k) as [E|E]; simpl.
  - intros H. injection H as <-. subst k.
    rewrite list_elem_of_In in Hn.
    rewrite (existsb_lookup_none _ _ (lookup_file_notin _ _ Hn)).
    rewrite orb_false_r. reflexivity.
  - exact (IH Hnd').
Qed.

Lemma make_entries_ids (nf : list (string * File)) :
  map uf_id (map (fun '(id, file) => make_entry id file) nf) = map fst nf.
Proof.
  induction nf as [|[id file] nf IH]; simpl; [reflexivity|].
  rewrite IH. f_equal. unfold make_entry. destruct (validateFile file); reflexivity.
Qed.

Lemma make_entry_shape (id : string) (file : File) :
  progress (make_entry id file) = 0 /\ status (make_entry id file) <> Success.
Proof.
  unfold make_entry. destruct (validateFile file); simpl; split;
    try reflexivity; discriminate.
Qed.

(* ------------------------------------------------------------------ *)
(** ** Transfer tracker: the invariant *)

Lemma file_ok_ext (iv1 iv2 : gmap string Z) (f : UploadedFile) :
  iv1 !! uf_id f = iv2 !! uf_id f -> file_ok iv1 f -> file_ok iv2 f.
Proof. unfold file_ok. intros E. rewrite E. auto. Qed.

Lemma upload_inv_init : upload_inv initialUploadState.
Proof.
  split; simpl.
  - intros id f H. discriminate H.
  - intros id p H. rewrite lookup_empty in H. discriminate H.
Qed.

Lemma upload_inv_remove (s : UploadState) (r : string) :
  upload_inv s -> upload_inv (removeFile r s).
Proof.
  intros [Hf Hb]. split; simpl; [|exact Hb].
  intros id f H. rewrite lookup_filter_removed in H.
  destruct (String.eqb id r); [discriminate|]. exact (Hf id f H).
Qed.

Lemma upload_inv_handleFiles (s : UploadState) (nf : list (string * File)) :
  fresh_ids nf s -> upload_inv s -> upload_inv (handleFiles nf s).
Proof.
  intros [Hnd Hfr] [Hf Hb].
  set (ufs := map (fun '(id, file) => make_entry id file) nf).
  assert (Hids : map uf_id ufs = map fst nf) by apply make_entries_ids.
  split; simpl; fold ufs.
  - intros id f H. rewrite lookup_app in H.
    destruct (lookup_file id (files s)) as [g|] eqn:Hold.
    + injection H as <-.
      apply (file_ok_ext (intervals s)); [|exact (Hf id g Hold)].
      rewrite (lookup_file_id _ _ _ Hold), start_intervals_lookup.
      rewrite existsb_lookup_none; [reflexivity|].
      apply lookup_file_notin. rewrite Hids. intros Hin.
      rewrite Forall_forall in Hfr.
      destruct (Hfr id (proj2 (list_elem_of_In _ _) Hin)) as [Hn _].
      congruence.
    + assert (Hin : In id (map fst nf)).
      { rewrite <- Hids. exact (lookup_file_some_in _ _ _ H). }
      rewrite Forall_forall in Hfr.
      destruct (Hfr id (proj2 (list_elem_of_In _ _) Hin)) as [_ Hiv].
      assert (Hshape : progress f = 0 /\ status f <> Success).
      { apply lookup_file_in in H. unfold ufs in H.
        apply in_map_iff in H as [[i file] [<- _]].
        apply make_entry_shape. }
      destruct Hshape as [Hp Hs].
      pose proof (existsb_lookup_some id ufs f
                    (ltac:(rewrite Hids; exact Hnd)) H) as Hex.
      pose proof (lookup_file_id _ _ _ H) as Hid.
      unfold file_ok. rewrite Hid, start_intervals_lookup, Hex.
      destruct (status f); [rewrite Hp; reflexivity | congruence |].
      split; [exact Hp | exact Hiv].
  - intros id p H. rewrite start_intervals_lookup in H.
    destruct (existsb _ _).
    + injection H as <-. lia.
    + exact (Hb id p H).
Qed.

Lemma upload_inv_tick (s s' : UploadState) (fid : string) :
  tick fid s = Some s' -> upload_inv s -> upload_inv s'.
Proof.
  unfold tick. intros Ht [Hf Hb].
  destruct (intervals s !! fid) as [p|] eqn:Hp; [|discriminate].
  assert (Hup : forall f, lookup_file fid (files s) = Some f ->
                          status f = Uploading /\ progress f = p).
  { intros f Hl. pose proof (Hf fid f Hl) as Hok.
    pose proof (lookup_file_id _ _ _ Hl) as Hid. unfold file_ok in Hok.
    rewrite Hid, Hp in Hok.
    destruct (status f); [split; congruence | |];
      destruct Hok as [_ Hok]; discriminate. }
  pose proof (Hb fid p Hp) as Hbp.
  destruct (Z.geb (p + 10) 100) eqn:Hg; injection Ht as <-; split; simpl.
  - intros id f H. destruct (String.eqb_spec id fid) as [E|E].
    + subst id. rewrite lookup_map_id_same in H by reflexivity.
      destruct (lookup_file fid (files s)) as [g|] eqn:Hl; [|discriminate].
      injection H as <-. unfold file_ok, with_success. simpl.
      rewrite (lookup_file_id _ _ _ Hl). split; [reflexivity|].
      apply lookup_delete_eq.
    + rewrite lookup_map_id_other in H by (reflexivity || exact E).
      apply (file_ok_ext (intervals s)); [|exact (Hf id f H)].
      rewrite (lookup_file_id _ _ _ H). symmetry.
      apply lookup_delete_ne. congruence.
  - intros id q H. apply lookup_delete_Some in H as [_ H]. exact (Hb id q H).
  - intros id f H. destruct (String.eqb_spec id fid) as [E|E].
    + subst id. rewrite lookup_map_id_same in H by reflexivity.
      destruct (lookup_file fid (files s)) as [g|] eqn:Hl; [|discriminate].
      injection H as <-. destruct (Hup g eq_refl) as [Hs _].
      unfold file_ok, with_progress. simpl. rewrite Hs.
      rewrite (lookup_file_id _ _ _ Hl). apply lookup_insert_eq.
    + rewrite lookup_map_id_other in H by (reflexivity || exact E).
      apply (file_ok_ext (intervals s)); [|exact (Hf id f H)].
      rewrite (lookup_file_id _ _ _ H). symmetry.
      apply lookup_insert_ne. congruence.
  - intros id q H. rewrite Z.geb_leb, Z.leb_gt in Hg.
    destruct (String.eqb_spec fid id) as [E|E].
    + subst id. rewrite lookup_insert_eq in H. injection H as <-. lia.
    + rewrite lookup_insert_ne in H by exact E. exact (Hb id q H).
Qed.

Lemma upload_inv_step (s s' : UploadState) :
  upload_step s s' -> upload_inv s -> upload_inv s'.
Proof.
  intros Hs. destruct Hs.
  - apply upload_inv_handleFiles. assumption.
  - apply (upload_inv_tick s s' fileId). assumption.
  - apply upload_inv_remove.
Qed.

Lemma reachable_inv (s : UploadState) : reachable s -> upload_inv s.
Proof.
  induction 1; [exact upload_inv_init|].
  exact (upload_inv_step s s' H0 IHreachable).
Qed.

(* ------------------------------------------------------------------ *)
(** ** Transfer tracker: progress and removal *)

(** C6: after any step from a reachable state, every entry shows an
    integer progress in [0, 100], and exactly 100 once succeeded; an
    uploading entry's progress never decreases; an entry that has
    succeeded or failed is not changed any more. *)
Theorem transfer_progress_monotone (s s' : UploadState) :
  reachable s -> upload_step s s' ->
  (forall id f', lookup_file id (files s') = Some f' ->
     0 <= progress f' <= 100 /\ (status f' = Success -> progress f' = 100)) /\
  (forall id f f', lookup_file id (files s) = Some f ->
     lookup_file id (files s') = Some f' ->
     (status f = Uploading -> progress f <= progress f') /\
     (status f <> Uploading -> f' = f)).
Proof.
  intros Hr Hs.
  pose proof (reachable_inv s Hr) as Hinv.
  pose proof (upload_inv_step s s' Hs Hinv) as [Hf' Hb'].
  split.
  - intros id f' H. pose proof (Hf' id f' H) as Hok. unfold file_ok in Hok.
    destruct (status f').
    + pose proof (Hb' _ _ Hok). split; [lia | discriminate].
    + destruct Hok as [Hp _]. rewrite Hp. split; [lia | reflexivity].
    + destruct Hok as [Hp _]. rewrite Hp. split; [lia | discriminate].
  - destruct Hinv as [Hf Hb].
    intros id f f' H H'. destruct Hs as [s nf _ | s fid s1 Ht | s r].
    + simpl in H'. rewrite lookup_app, H in H'. injection H' as <-.
      split; [lia | reflexivity].
    + unfold tick in Ht.
      destruct (intervals s !! fid) as [p|] eqn:Hp; [|discriminate].
      destruct (String.eqb_spec id fid) as [E|E].
      * subst id. pose proof (Hf fid f H) as Hok. unfold file_ok in Hok.
        rewrite (lookup_file_id _ _ _ H), Hp in Hok.
        pose proof (Hb fid p Hp) as Hbp.
        destruct (status f) eqn:Hst;
          [| destruct Hok as [_ Hok]; discriminate
           | destruct Hok as [_ Hok]; discriminate].
        injection Hok as Hok.
        split; [|intros Hn; exfalso; exact (Hn eq_refl)]. intros _.
        destruct (Z.geb (p + 10) 100); injection Ht as <-; simpl in H';
          rewrite lookup_map_id_same, H in H' by reflexivity;
          injection H' as <-; simpl; lia.
      * destruct (Z.geb (p + 10) 100); injection Ht as <-; simpl in H';
          rewrite lookup_map_id_other, H in H' by (reflexivity || exact E);
          injection H' as <-; (split; [lia | reflexivity]).
    + simpl in H'. rewrite lookup_filter_removed in H'.
      destruct (String.eqb id r); [discriminate|].
      rewrite H in H'. injection H' as <-. split; [lia | reflexivity].
Qed.

Lemma transfer_progress_monotone_witness :
  let file := mkFile "a.png" 1024 "image/png" in
  let s1 := handleFiles [("a.png-1-0.5", file)] initialUploadState in
  let s2 := mkUploadState [with_progress 10 (make_entry "a.png-1-0.5" file)]
                          (<["a.png-1-0.5" := 10]> ∅) in
  reachable s1 /\ upload_step s1 s2 /\
  (progress (make_entry "a.png-1-0.5" file) <= 10).
Proof.
  intros file s1 s2.
  assert (Hfresh : fresh_ids [("a.png-1-0.5", file)] initialUploadState).
  { split; [apply NoDup_singleton|].
    constructor; [split; reflexivity | constructor]. }
  assert (Hr : reachable s1) by exact (reach_step _ _ reach_init
                                        (StepHandleFiles _ _ Hfresh)).
  assert (Ht : tick "a.png-1-0.5" s1 = Some s2) by reflexivity.
  assert (Hs : upload_step s1 s2) by exact (StepTick _ _ _ Ht).
  refine (conj Hr (conj Hs _)).
  exact (proj1 (proj2 (transfer_progress_monotone s1 s2 Hr Hs)
                  "a.png-1-0.5" _ _ eq_refl eq_refl) eq_refl).
Defined.

(** C5, as the claim states it, fails: removing a file mid-transfer does
    not leave an entry in a failed state; the entry is gone. *)
Lemma remove_abort_counterexample :
  ~ (forall (s : UploadState) (id : string) (f : UploadedFile),
       reachable s -> lookup_file id (files s) = Some f ->
       status f = Uploading -> 0 <= progress f <= 99 ->
       exists f', lookup_file id (files (removeFile id s)) = Some f' /\
                  status f' = Error).
Proof.
  intros H.
  set (file := mkFile "a.png" 1024 "image/png").
  assert (Hfresh : fresh_ids [("f", file)] initialUploadState).
  { split; [apply NoDup_singleton|].
    constructor; [split; reflexivity | constructor]. }
  destruct (H _ "f" (make_entry "f" file)
              (reach_step _ _ reach_init (StepHandleFiles _ _ Hfresh))
              eq_refl eq_refl) as [f' [Hl _]]; [simpl; lia|].
  discriminate Hl.
Qed.

(** C5 (amended): [removeFile] deletes the entry, so no entry for the id
    remains (there is no failed or aborted state for it); its interval is
    not cleared and keeps firing, but while no entry has the id each firing
    leaves the list of entries unchanged. *)
Theorem remove_mid_transfer (s : UploadState) (id : string) :
  lookup_file id (files (removeFile id s)) = None /\
  intervals (removeFile id s) = intervals s /\
  (forall t t', lookup_file id (files t) = None ->
                tick id t = Some t' ->
                files t' = files t /\ lookup_file id (files t') = None).
Proof.
  split; [|split; [reflexivity|]].
  - simpl. rewrite lookup_filter_removed, string_eqb_refl'. reflexivity.
  - intros t t' Hn Ht. unfold tick in Ht.
    destruct (intervals t !! id) as [p|]; [|discriminate].
    assert (Hm : forall h, map_id id h (files t) = files t)
      by (intros h; apply map_id_absent; exact Hn).
    destruct (Z.geb (p + 10) 100); injection Ht as <-; simpl;
      rewrite Hm; split; [reflexivity | exact Hn | reflexivity | exact Hn].
Qed.

Lemma remove_mid_transfer_witness :
  let file := mkFile "a.png" 1024 "image/png" in
  let s1 := removeFile "f" (handleFiles [("f", file)] initialUploadState) in
  lookup_file "f" (files s1) = None /\
  tick "f" s1 = Some (mkUploadState [] (<["f" := 10]> ∅)) /\
  files (mkUploadState [] (<["f" := 10]> ∅)) = files s1.
Proof.
  intros file s1.
  pose proof (remove_mid_transfer
                (handleFiles [("f", file)] initialUploadState) "f")
    as [Hn [_ Hk]].
  assert (Ht : tick "f" s1 = Some (mkUploadState [] (<["f" := 10]> ∅)))
    by reflexivity.
  exact (conj Hn (conj Ht (proj1 (Hk _ _ Hn Ht)))).
Defined.

(* ================================================================== *)
(** * Further properties of the code *)

(* ------------------------------------------------------------------ *)
(** ** Validators and documents *)

(** [validateFile] accepts a file exactly when its type is allowed and it
    has at most 10 MiB. *)
Theorem validateFile_accepts (file : File) :
  validateFile file = None <->
  includes ALLOWED_FILE_TYPES (type file) = true /\ size file <= MAX_FILE_SIZE.
Proof.
  unfold validateFile.
  destruct (includes ALLOWED_FILE_TYPES (type file)); simpl.
  - destruct (Z.gtb_spec (size file) MAX_FILE_SIZE) as [H|H].
    + split; [discriminate | intros [_ H']; lia].
    + split; [intros _; split; [reflexivity | lia] | reflexivity].
  - split; [discriminate | intros [H _]; discriminate H].
Qed.

Lemma profile_types_allowed (t : string) :
  includes PROFILE_IMAGE_TYPES t = true -> includes ALLOWED_FILE_TYPES t = true.
Proof.
  unfold includes, PROFILE_IMAGE_TYPES, ALLOWED_FILE_TYPES. simpl. intros H.
  repeat (apply orb_true_iff in H as [H|H];
          [apply String.eqb_eq in H; subst t; reflexivity|]).
  congruence.
Qed.

(** A file accepted as a profile image is also accepted by the general
    upload validation: its type is one of the general types and 5 MiB is
    below 10 MiB. *)
Theorem profile_image_accepted_by_upload (file : File) :
  validateProfileImage file = None -> validateFile file = None.
Proof.
  unfold validateProfileImage. intros H.
  destruct (includes PROFILE_IMAGE_TYPES (type file)) eqn:Ht; [|discriminate].
  simpl in H. destruct (Z.gtb_spec (size file) MAX_PROFILE_IMAGE_SIZE) as [Hs|Hs];
    [discriminate|].
  apply validateFile_accepts. split; [exact (profile_types_allowed _ Ht)|].
  unfold MAX_PROFILE_IMAGE_SIZE in Hs. unfold MAX_FILE_SIZE. lia.
Qed.

Lemma profile_image_accepted_by_upload_witness :
  let g := mkFile "me.gif" 4096 "image/gif" in
  validateProfileImage g = None /\ validateFile g = None.
Proof.
  intros g. refine (conj eq_refl _).
  exact (profile_image_accepted_by_upload g eq_refl).
Defined.

(** [addDocuments] keeps the earlier documents and appends one document per
    dropped file whose type is a document type, in order, whatever its
    size (there is no size check); every added document gets the icon of
    its type, never the fallback paper clip. *)
Theorem addDocuments_spec (newFiles : list (string * File))
    (documents : list UploadedDocument) :
  exists added,
    addDocuments newFiles documents = app documents added /\
    map doc_file added =
      map snd (List.filter (fun '(_, file) => includes DOCUMENT_TYPES (type file))
                           newFiles) /\
    Forall (fun doc => includes DOCUMENT_TYPES (type (doc_file doc)) = true /\
                       preview doc = getFileIcon (type (doc_file doc)) /\
                       preview doc <> ICON_OTHER) added.
Proof.
  eexists. split; [reflexivity|]. split.
  - induction newFiles as [|[id file] nf IH]; cbn [List.filter map];
      [reflexivity|].
    destruct (includes DOCUMENT_TYPES (type file)); cbn [map snd doc_file];
      [f_equal|]; exact IH.
  - induction newFiles as [|[id file] nf IH]; cbn [List.filter map];
      [constructor|].
    destruct (includes DOCUMENT_TYPES (type file)) eqn:Ht; cbn [map];
      [|exact IH].
    constructor; [|exact IH]. simpl. split; [exact Ht | split; [reflexivity|]].
    unfold includes, DOCUMENT_TYPES in Ht. simpl in Ht.
    repeat (apply orb_true_iff in Ht as [Ht|Ht];
            [apply String.eqb_eq in Ht; rewrite Ht; vm_compute; discriminate|]).
    congruence.
Qed.

(* ------------------------------------------------------------------ *)
(** ** Processing settings *)

(** Under encryption, whenever the red "at least 6 characters" hint is
    shown the Save button is disabled and the amber message is shown; with
    an empty password the button is disabled too, but no red hint is
    shown. *)
Theorem password_hint_blocks (fileName : string) (d : Draft) :
  encryptEnabled d = true ->
  (passwordHintShown d = true ->
   click_save fileName d = SaveDisabled /\ validPasswordMessageShown d = true) /\
  (password d = "" ->
   passwordHintShown d = false /\ click_save fileName d = SaveDisabled).
Proof.
  intros He.
  assert (Hblock : (String.length (trim (password d)) < 6)%nat ->
                   click_save fileName d = SaveDisabled /\
                   validPasswordMessageShown d = true).
  { intros Hl. unfold click_save, validPasswordMessageShown, canProceed.
    rewrite He. replace (Nat.leb 6 (String.length (trim (password d))))
      with false by (symmetry; apply Nat.leb_gt; lia).
    split; reflexivity. }
  split.
  - unfold passwordHintShown. rewrite He. simpl. intros H.
    apply andb_true_iff in H as [_ H]. apply Nat.ltb_lt in H.
    apply Hblock. pose proof (trim_length_le (password d)). lia.
  - intros Hp. unfold passwordHintShown. rewrite He, Hp. split; [reflexivity|].
    apply Hblock. rewrite Hp. vm_compute. lia.
Qed.

Lemma password_hint_blocks_witness :
  let d := mkDraft true "abc" false false in
  encryptEnabled d = true /\ passwordHintShown d = true /\
  click_save "a.png" d = SaveDisabled.
Proof.
  intros d. refine (conj eq_refl (conj eq_refl _)).
  exact (proj1 (proj1 (password_hint_blocks "a.png" d eq_refl) eq_refl)).
Defined.

(** "Reset to Default" always makes the draft submittable, and the
    configuration it then submits has encryption and compression off and no
    password; the password visibility is left as it was. *)
Theorem reset_submits_defaults (fileName : string) (d : Draft) :
  let d' := draft_event ResetDraft d in
  canProceed d' = true /\
  click_save fileName d' =
    SaveFired (mkProcessingConfig false false None fileName) /\
  showPassword d' = showPassword d.
Proof. repeat split. Qed.

Lemma estimated_size_compressed (fileSize : Z) :
  getEstimatedSize true fileSize = (6 * fileSize + 5) / 10.
Proof.
  unfold getEstimatedSize, math_round, getCompressionReduction. simpl.
  unfold Qfloor, Qplus, Qmult, inject_Z. simpl.
  match goal with
  | |- ?a / ?b = _ =>
      replace a with ((6 * fileSize + 5) * 2) by lia;
      replace b with (10 * 2) by reflexivity
  end.
  apply Z.div_mul_cancel_r; lia.
Qed.

(** The displayed estimate of a file size never exceeds the size and is
    never negative, with compression on or off. *)
Theorem estimated_size_bounds (compressOn : bool) (fileSize : Z) :
  0 <= fileSize ->
  0 <= getEstimatedSize compressOn fileSize <= fileSize.
Proof.
  intros H. destruct compressOn; [|unfold getEstimatedSize; simpl; lia].
  rewrite estimated_size_compressed. split.
  - apply Z.div_pos; lia.
  - assert ((6 * fileSize + 5) / 10 < fileSize + 1)
      by (apply Z.div_lt_upper_bound; lia).
    lia.
Qed.

Lemma estimated_size_bounds_witness :
  0 <= 1000 /\ 0 <= getEstimatedSize true 1000 <= 1000.
Proof. split; [lia | apply estimated_size_bounds; lia]. Defined.

(* ------------------------------------------------------------------ *)
(** ** The upload list *)

Lemma make_entry_id (id : string) (file : File) : uf_id (make_entry id file) = id.
Proof. unfold make_entry. destruct (validateFile file); reflexivity. Qed.

Lemma lookup_new_entry (nf : list (string * File)) (id : string) (file : File) :
  NoDup (map fst nf) -> In (id, file) nf ->
  lookup_file id (map (fun '(i, f) => make_entry i f) nf) =
    Some (make_entry id file).
Proof.
  induction nf as [|[i f] nf IH]; simpl; [intros _ []|].
  intros Hnd Hin. inversion Hnd as [|? ? Hn Hnd']; subst.
  rewrite make_entry_id. destruct Hin as [E|Hin].
  - injection E as -> ->. rewrite string_eqb_refl'. reflexivity.
  - destruct (String.eqb_spec i id) as [E|E].
    + subst i. exfalso. apply Hn. apply list_elem_of_In.
      apply (in_map fst nf (id, file)). exact Hin.
    + exact (IH Hnd' Hin).
Qed.

(** [handleFiles] leaves every interval already running as it is (also
    those of entries already removed by [removeFile]), leaves the entries
    already listed as they are, and gives every dropped file an entry for its id: in
    error, at progress 0, with the validation message and no interval when
    [validateFile] rejects it; uploading at progress 0 with an interval
    started at 0 otherwise. *)
Theorem handleFiles_entries (nf : list (string * File)) (s : UploadState) :
  fresh_ids nf s ->
  let s' := handleFiles nf s in
  (forall id, ~ In id (map fst nf) -> intervals s' !! id = intervals s !! id) /\
  (forall id v, intervals s !! id = Some v -> intervals s' !! id = Some v) /\
  (forall id f, lookup_file id (files s) = Some f ->
     lookup_file id (files s') = Some f /\
     intervals s' !! id = intervals s !! id) /\
  (forall id file, In (id, file) nf ->
     exists e, lookup_file id (files s') = Some e /\ uf_file e = file /\
       progress e = 0 /\
       match validateFile file with
       | Some msg => status e = Error /\ error e = Some msg /\
                     intervals s' !! id = None
       | None => status e = Uploading /\ intervals s' !! id = Some 0
       end).
Proof.
  intros [Hnd Hfr] s'.
  set (ufs := map (fun '(id, file) => make_entry id file) nf).
  assert (Hids : map uf_id ufs = map fst nf) by apply make_entries_ids.
  rewrite Forall_forall in Hfr.
  assert (Hold : forall id, ~ In id (map fst nf) ->
                 intervals s' !! id = intervals s !! id).
  { intros id Hni. unfold s', handleFiles. simpl. fold ufs.
    rewrite start_intervals_lookup, existsb_lookup_none; [reflexivity|].
    apply lookup_file_notin. rewrite Hids. exact Hni. }
  split; [exact Hold|].
  split.
  { intros id v Hv. rewrite Hold; [exact Hv|]. intros Hin.
    destruct (Hfr id (proj2 (list_elem_of_In _ _) Hin)) as [_ Hn].
    congruence. }
  split.
  - intros id f H. unfold s', handleFiles. simpl. fold ufs.
    rewrite lookup_app, H. split; [reflexivity|].
    rewrite start_intervals_lookup, existsb_lookup_none; [reflexivity|].
    apply lookup_file_notin. rewrite Hids. intros Hin.
    destruct (Hfr id (proj2 (list_elem_of_In _ _) Hin)) as [Hn _]. congruence.
  - intros id file Hin.
    assert (Hin' : In id (map fst nf)) by exact (in_map fst nf (id, file) Hin).
    destruct (Hfr id (proj2 (list_elem_of_In _ _) Hin')) as [Hn Hiv].
    pose proof (lookup_new_entry nf id file Hnd Hin) as Hl. fold ufs in Hl.
    exists (make_entry id file).
    assert (Hiv' : intervals s' !! id =
              if match status (make_entry id file) with
                 | Uploading => true | _ => false end
              then Some 0 else intervals s !! id).
    { unfold s', handleFiles. simpl. fold ufs.
      rewrite start_intervals_lookup.
      rewrite (existsb_lookup_some id ufs _ (ltac:(rewrite Hids; exact Hnd)) Hl).
      reflexivity. }
    split; [unfold s', handleFiles; simpl; fold ufs; rewrite lookup_app, Hn;
            exact Hl|].
    rewrite Hiv'. unfold make_entry.
    destruct (validateFile file); simpl; repeat split; try reflexivity.
    exact Hiv.
Qed.

Lemma handleFiles_entries_witness :
  let nf := [("a", mkFile "a.png" 1024 "image/png");
             ("b", mkFile "b.exe" 10 "application/x-msdownload")] in
  fresh_ids nf initialUploadState /\
  intervals (handleFiles nf initialUploadState) !! "a" = Some 0.
Proof.
  intros nf.
  assert (Hf : fresh_ids nf initialUploadState).
  { split.
    - apply NoDup_cons_2; [|apply NoDup_singleton].
      rewrite list_elem_of_In. simpl. intros [H|[]]. discriminate H.
    - repeat constructor. }
  refine (conj Hf _).
  destruct (proj2 (proj2 (proj2 (handleFiles_entries nf initialUploadState Hf))) "a"
              (mkFile "a.png" 1024 "image/png") (or_introl eq_refl))
    as [e [_ [_ [_ He]]]].
  exact (proj2 He).
Defined.

Lemma tick_n_succ_r (n : nat) (id : string) (s : UploadState) :
  tick_n (S n) id s =
  match tick_n n id s with Some s' => tick id s' | None => None end.
Proof.
  revert s. induction n as [|n IH]; intros s; simpl.
  - destruct (tick id s); reflexivity.
  - destruct (tick id s) as [s1|]; [|reflexivity]. exact (IH s1).
Qed.

Lemma map_id_progress_progress (id : string) (a b : Z) (fs : list UploadedFile) :
  map_id id (with_progress a) (map_id id (with_progress b) fs) =
  map_id id (with_progress a) fs.
Proof.
  induction fs as [|f fs IH]; simpl; [reflexivity|].
  destruct (String.eqb (uf_id f) id) eqn:E; simpl; rewrite ?E, IH; reflexivity.
Qed.

Lemma map_id_success_progress (id : string) (b : Z) (fs : list UploadedFile) :
  map_id id with_success (map_id id (with_progress b) fs) =
  map_id id with_success fs.
Proof.
  induction fs as [|f fs IH]; simpl; [reflexivity|].
  destruct (String.eqb (uf_id f) id) eqn:E; simpl; rewrite ?E, IH; reflexivity.
Qed.

Lemma tick_n_uploading (id : string) (fs : list UploadedFile)
    (iv : gmap string Z) (n : nat) (p : Z) :
  0 <= p -> p + 10 * Z.of_nat n < 100 ->
  tick_n n id (mkUploadState (map_id id (with_progress p) fs) (<[id := p]> iv)) =
  Some (mkUploadState (map_id id (with_progress (p + 10 * Z.of_nat n)) fs)
                      (<[id := p + 10 * Z.of_nat n]> iv)).
Proof.
  revert p. induction n as [|n IH]; intros p Hp Hb.
  - simpl tick_n. replace (p + 10 * Z.of_nat 0) with p by lia. reflexivity.
  - simpl tick_n. unfold tick. simpl intervals. rewrite lookup_insert_eq.
    replace (p + 10 >=? 100) with false
      by (symmetry; rewrite Z.geb_leb; apply Z.leb_gt; lia).
    simpl files. rewrite map_id_progress_progress, insert_insert_eq.
    rewrite IH by lia.
    replace (p + 10 + 10 * Z.of_nat n) with (p + 10 * Z.of_nat (S n)) by lia.
    reflexivity.
Qed.

(** Once [simulateUpload] has started an interval at 0 for an id, nine
    firings show progress 90 on the entries with that id, the tenth marks
    them succeeded at 100 and clears the interval, and there is no
    eleventh firing. *)
Theorem transfer_ten_ticks (s : UploadState) (id : string) :
  intervals s !! id = Some 0 ->
  tick_n 9 id s =
    Some (mkUploadState (map_id id (with_progress 90) (files s))
                        (<[id := 90]> (intervals s))) /\
  tick_n 10 id s =
    Some (mkUploadState (map_id id with_success (files s))
                        (delete id (intervals s))) /\
  tick_n 11 id s = None.
Proof.
  destruct s as [fs iv]. cbn [files intervals]. intros H.
  assert (H9 : tick_n 9 id (mkUploadState fs iv) =
               Some (mkUploadState (map_id id (with_progress 90) fs)
                                   (<[id := 90]> iv))).
  { simpl tick_n. unfold tick. simpl intervals. rewrite H. simpl.
    exact (tick_n_uploading id fs iv 8 10 ltac:(lia) ltac:(simpl; lia)). }
  assert (H10 : tick_n 10 id (mkUploadState fs iv) =
                Some (mkUploadState (map_id id with_success fs)
                                    (delete id iv))).
  { rewrite tick_n_succ_r, H9. unfold tick. simpl intervals.
    rewrite lookup_insert_eq. simpl.
    rewrite map_id_success_progress, delete_insert_eq. reflexivity. }
  split; [exact H9 | split; [exact H10|]].
  rewrite tick_n_succ_r, H10. unfold tick. simpl intervals.
  rewrite lookup_delete_eq. reflexivity.
Qed.

Lemma transfer_ten_ticks_witness :
  let s := handleFiles [("f", mkFile "a.png" 1024 "image/png")]
             initialUploadState in
  intervals s !! "f" = Some 0 /\ tick_n 11 "f" s = None.
Proof.
  intros s. assert (H : intervals s !! "f" = Some 0) by reflexivity.
  exact (conj H (proj2 (proj2 (transfer_ten_ticks s "f" H)))).
Defined.

Lemma upload_valid_inv_step (s s' : UploadState) :
  upload_inv s -> upload_valid_inv s -> upload_step s s' -> upload_valid_inv s'.
Proof.
  intros [Hf Hb] Hv Hs. destruct Hs as [s nf _ | s fid s1 Ht | s r].
  - intros id f H Hne. simpl in H. rewrite lookup_app in H.
    destruct (lookup_file id (files s)) as [g|] eqn:Hl.
    + injection H as <-. exact (Hv id g Hl Hne).
    + apply lookup_file_in, in_map_iff in H as [[i file] [<- _]].
      revert Hne. unfold make_entry.
      destruct (validateFile file) eqn:E; simpl; [congruence | intros _; exact E].
  - unfold tick in Ht.
    destruct (intervals s !! fid) as [p|] eqn:Hp; [|discriminate].
    assert (Hok : forall g, lookup_file fid (files s) = Some g ->
                            validateFile (uf_file g) = None).
    { intros g Hl. apply (Hv fid g Hl). pose proof (Hf fid g Hl) as Hg.
      unfold file_ok in Hg. rewrite (lookup_file_id _ _ _ Hl), Hp in Hg.
      destruct (status g); [discriminate | destruct Hg as [_ Hg] ..];
        discriminate. }
    intros id f H Hne. destruct (String.eqb_spec id fid) as [E|E].
    + subst id.
      destruct (Z.geb (p + 10) 100); injection Ht as <-; simpl in H;
        rewrite lookup_map_id_same in H by reflexivity;
        destruct (lookup_file fid (files s)) as [g|] eqn:Hl; try discriminate;
        injection H as <-; exact (Hok g eq_refl).
    + destruct (Z.geb (p + 10) 100); injection Ht as <-; simpl in H;
        rewrite lookup_map_id_other in H by (reflexivity || exact E);
        exact (Hv id f H Hne).
  - intros id f H Hne. simpl in H. rewrite lookup_filter_removed in H.
    destruct (String.eqb id r); [discriminate|]. exact (Hv id f H Hne).
Qed.

Lemma reachable_valid (s : UploadState) : reachable s -> upload_valid_inv s.
Proof.
  induction 1 as [|s s' Hr IH Hs].
  - intros id f H. discriminate H.
  - exact (upload_valid_inv_step s s' (reachable_inv s Hr) IH Hs).
Qed.

(* ------------------------------------------------------------------ *)
(** ** Navigation in App *)

Lemma reachable_tick_n (n : nat) (id : string) (s s' : UploadState) :
  reachable s -> tick_n n id s = Some s' -> reachable s'.
Proof.
  revert s. induction n as [|n IH]; intros s Hr Ht; simpl in Ht.
  - injection Ht as E. rewrite <- E. exact Hr.
  - destruct (tick id s) as [s1|] eqn:E; [|discriminate].
    exact (IH s1 (reach_step _ _ Hr (StepTick _ _ _ E)) Ht).
Qed.

(** "Process File" on the dashboard opens the processing page only for a
    file that passed [validateFile] (allowed type, at most 10 MiB): the
    button exists only on succeeded entries, and only validated files ever
    start uploading. *)
Theorem process_file_validated (s : AppState) (u : UploadState) (id : string)
    (file : File) :
  view s = VDashboard -> upload s = Some u -> reachable u ->
  process_file_button u id = Some file ->
  validateFile file = None /\
  app_process_file id s = handleFileSelect file s /\
  view (app_process_file id s) = VProcessing /\
  selectedFile (app_process_file id s) = Some file.
Proof.
  intros Hv Hu Hr Hb.
  assert (Hval : validateFile file = None).
  { unfold process_file_button in Hb.
    destruct (lookup_file id (files u)) as [f|] eqn:Hl; [|discriminate].
    destruct (status f) eqn:Hs; try discriminate. injection Hb as <-.
    apply (reachable_valid u Hr id f Hl). rewrite Hs. discriminate. }
  assert (Happ : app_process_file id s = handleFileSelect file s).
  { unfold app_process_file. rewrite Hv, Hu, Hb. reflexivity. }
  assert (Hl : isLoggedIn s = true).
  { unfold view in Hv. destruct (isLoggedIn s); [reflexivity | discriminate]. }
  rewrite Happ. split; [exact Hval | split; [reflexivity|]].
  unfold handleFileSelect, commit, view. simpl. rewrite Hl. simpl.
  split; reflexivity.
Qed.

Lemma process_file_validated_witness :
  let file := mkFile "a.png" 1024 "image/png" in
  let u0 := handleFiles [("f", file)] initialUploadState in
  let u := mkUploadState [with_success (make_entry "f" file)] ∅ in
  let s := mkAppState true "alice" PUpload None 0 (Some u) None in
  view s = VDashboard /\ reachable u /\ process_file_button u "f" = Some file /\
  validateFile file = None.
Proof.
  intros file u0 u s.
  assert (Hfresh : fresh_ids [("f", file)] initialUploadState).
  { split; [apply NoDup_singleton|].
    constructor; [split; reflexivity | constructor]. }
  assert (Hr0 : reachable u0)
    by exact (reach_step _ _ reach_init (StepHandleFiles _ _ Hfresh)).
  assert (Ht : tick_n 10 "f" u0 = Some u) by reflexivity.
  pose proof (reachable_tick_n 10 "f" u0 u Hr0 Ht) as Hr.
  assert (Hb : process_file_button u "f" = Some file) by reflexivity.
  refine (conj eq_refl (conj Hr (conj Hb _))).
  exact (proj1 (process_file_validated s u "f" file eq_refl eq_refl Hr Hb)).
Defined.

(** Choosing a file from the dashboard opens the processing page with the
    default draft (encryption and compression off, empty password),
    whatever an earlier draft held, and unmounts the upload list. *)
Theorem file_select_fresh_draft (s : AppState) (file : File) :
  view s = VDashboard ->
  let s' := handleFileSelect file s in
  view s' = VProcessing /\ settings s' = Some initialDraft /\
  upload s' = None /\ selectedFile s' = Some file.
Proof.
  intros Hv s'.
  assert (Hl : isLoggedIn s = true)
    by (unfold view in Hv; destruct (isLoggedIn s); [reflexivity | discriminate]).
  unfold s', handleFileSelect, commit. unfold view at 1 2 3. simpl.
  rewrite Hl, Hv. simpl. repeat split.
Qed.

Lemma file_select_fresh_draft_witness :
  let s := mkAppState true "alice" PUpload None 0
             (Some initialUploadState) None in
  view s = VDashboard /\
  settings (handleFileSelect (mkFile "a.png" 1024 "image/png") s) =
    Some initialDraft.
Proof.
  intros s. refine (conj eq_refl _).
  exact (proj1 (proj2 (file_select_fresh_draft s _ eq_refl))).
Defined.

(** Choosing a file and then "Cancel and go back" returns to a dashboard
    whose upload list is empty: the entries listed before were dropped with
    the unmounted [FileUpload]; the draft is dropped too, and the file
    stays selected. *)
Theorem select_then_back_clears_list (s : AppState) (file : File) :
  view s = VDashboard ->
  let s' := handleProcessingBack (handleFileSelect file s) in
  view s' = VDashboard /\ upload s' = Some initialUploadState /\
  settings s' = None /\ selectedFile s' = Some file.
Proof.
  intros Hv s'.
  assert (Hl : isLoggedIn s = true)
    by (unfold view in Hv; destruct (isLoggedIn s); [reflexivity | discriminate]).
  unfold s', handleProcessingBack, set_page, handleFileSelect, commit.
  unfold view. simpl. rewrite Hl. simpl. repeat split.
Qed.

Lemma select_then_back_clears_list_witness :
  let u := mkUploadState [with_success (make_entry "f" (mkFile "a.png" 1 "image/png"))] ∅ in
  let s := mkAppState true "alice" PUpload None 0 (Some u) None in
  view s = VDashboard /\
  upload (handleProcessingBack (handleFileSelect (mkFile "a.png" 1 "image/png") s))
    = Some initialUploadState.
Proof.
  intros u s. refine (conj eq_refl _).
  exact (proj1 (proj2 (select_then_back_clears_list s _ eq_refl))).
Defined.

(** "Save Settings" followed by "Cancel and go back" before the 1.5 s
    timeout does not cancel the processing: when the timeout fires the
    completed page is shown, with the reference of the selected file. *)
Theorem save_then_cancel_completes (s : AppState) (d : Draft) (f : File) :
  view s = VProcessing -> settings s = Some d -> selectedFile s = Some f ->
  canProceed d = true ->
  exists s3,
    fire_processing_timeout (handleProcessingBack (app_click_save s)) = Some s3 /\
    view s3 = VComplete /\ app_reference s3 = Some (fileUrl (name f)).
Proof.
  intros Hv Hs Hf Hc.
  assert (Hl : isLoggedIn s = true)
    by (unfold view in Hv; destruct (isLoggedIn s); [reflexivity | discriminate]).
  unfold app_click_save. rewrite Hv, Hs, Hf. unfold click_save. rewrite Hc.
  eexists. split; [reflexivity|].
  unfold handleProcessingBack, set_page, handleProcessingStart, commit, app_reference.
  unfold view. simpl. rewrite Hl, Hf. simpl. split; reflexivity.
Qed.

Lemma save_then_cancel_completes_witness :
  let d := mkDraft true "secret1" false true in
  let f := mkFile "a.png" 1024 "image/png" in
  let s := mkAppState true "alice" PProcessing (Some f) 0 None (Some d) in
  view s = VProcessing /\ canProceed d = true /\
  exists s3,
    fire_processing_timeout (handleProcessingBack (app_click_save s)) = Some s3 /\
    view s3 = VComplete.
Proof.
  intros d f s. refine (conj eq_refl (conj eq_refl _)).
  destruct (save_then_cancel_completes s d f eq_refl eq_refl eq_refl eq_refl)
    as [s3 [H1 [H2 _]]].
  exists s3. exact (conj H1 H2).
Defined.

(** Logging out shows the login page and drops the user name, the
    selected file, the upload list and any draft; logging in again shows
    the dashboard with an empty upload list. *)
Theorem logout_then_login (s : AppState) (user : string) :
  let s1 := handleLogout s in
  let s2 := handleLogin user s1 in
  view s1 = VLogin /\ username s1 = "" /\ selectedFile s1 = None /\
  upload s1 = None /\ settings s1 = None /\
  view s2 = VDashboard /\ username s2 = user /\
  upload s2 = Some initialUploadState /\ settings s2 = None.
Proof.
  intros s1 s2. unfold s2, s1, handleLogin, handleLogout, commit, view.
  simpl. repeat split.
Qed.

(** The pending timeout of a second "Save Settings" click that fires after
    "Process another file" sets the page to "complete", but with no file
    selected App keeps showing the dashboard, with its upload list
    untouched. *)
Theorem stale_timeout_after_process_another (s : AppState) (n : nat) :
  view s = VComplete -> pendingTimeouts s = S n ->
  exists s2,
    fire_processing_timeout (handleProcessAnother s) = Some s2 /\
    currentPage s2 = PComplete /\ view s2 = VDashboard /\
    upload s2 = Some initialUploadState /\ app_reference s2 = None /\
    pendingTimeouts s2 = n.
Proof.
  intros Hv Hp.
  assert (Hl : isLoggedIn s = true)
    by (unfold view in Hv; destruct (isLoggedIn s); [reflexivity | discriminate]).
  unfold fire_processing_timeout, handleProcessAnother, commit.
  simpl. rewrite Hp. eexists. split; [reflexivity|].
  unfold app_reference, view. simpl. rewrite Hl.
  unfold view in Hv. rewrite Hl in Hv. simpl in Hv.
  simpl. rewrite Hv. repeat split.
Qed.

Lemma stale_timeout_after_process_another_witness :
  let f := mkFile "a.png" 1024 "image/png" in
  let s := mkAppState true "alice" PComplete (Some f) 1 None None in
  view s = VComplete /\ pendingTimeouts s = S 0 /\
  exists s2, fire_processing_timeout (handleProcessAnother s) = Some s2 /\
             view s2 = VDashboard.
Proof.
  intros f s. refine (conj eq_refl (conj eq_refl _)).
  destruct (stale_timeout_after_process_another s 0 eq_refl eq_refl)
    as [s2 [H1 [_ [H2 _]]]].
  exists s2. exact (conj H1 H2).
Defined.

(* ------------------------------------------------------------------ *)
(** ** Profile image *)

(** A rejected profile image leaves the shown image and any pending read as
    they are and shows the rejection message; an accepted one hides the
    error and starts a read, whose completion shows the new image. *)
Theorem profile_image_change (file : File) (st : ProfileImageState)
    (dataUrl : string) :
  (forall e, validateProfileImage file = Some e ->
     let st' := handleProfileImageChange file st in
     profileImage st' = profileImage st /\ pendingRead st' = pendingRead st /\
     errors st' !! "profileImage" = Some e /\
     profileImageErrorShown st' = true) /\
  (validateProfileImage file = None ->
     let st' := handleProfileImageChange file st in
     profileImageErrorShown st' = false /\ pendingRead st' = Some file /\
     profileImage (profileReadDone dataUrl st') = Some dataUrl /\
     profileImageErrorShown (profileReadDone dataUrl st') = false).
Proof.
  split.
  - intros e He st'.
    assert (Hne : String.eqb e "" = false).
    { revert He. unfold validateProfileImage.
      destruct (negb _); [intros H; injection H as <-; reflexivity|].
      destruct (_ >? _); [intros H; injection H as <-; reflexivity|].
      discriminate. }
    unfold st', handleProfileImageChange, profileImageErrorShown. rewrite He.
    simpl. rewrite lookup_insert_eq, Hne. repeat split.
  - intros He st'.
    unfold st', handleProfileImageChange, profileImageErrorShown,
      profileReadDone. rewrite He. simpl. rewrite lookup_insert_eq.
    repeat split.
Qed.

Lemma profile_image_change_witness :
  let big := mkFile "me.png" (6 * 1024 * 1024) "image/png" in
  let st := mkProfileImageState (Some "data:old") ∅ None in
  validateProfileImage big = Some ERR_PROFILE_SIZE /\
  profileImage (handleProfileImageChange big st) = Some "data:old".
Proof.
  intros big st. assert (H : validateProfileImage big = Some ERR_PROFILE_SIZE)
    by reflexivity.
  refine (conj H _).
  exact (proj1 (proj1 (profile_image_change big st "") ERR_PROFILE_SIZE H)).
Defined.
